(** * Tool calling with LangchainJS and Ollama: the script [index.js]

    The script declares two tools (addition, multiplication) that share one
    argument schema, binds them to a chat model, asks one question and then
    walks over the tool calls the model returned: it looks each name up in
    [toolMapping], invokes what it found and prints the result.

    The chat model is the only input the script has: here it is the list
    [tool_calls] that [llmWithTools.invoke] resolves to.  Numbers are
    JavaScript numbers, that is binary64 floats.

    The script calls into three libraries; what it uses of them is
    written out below, each under the name the library gives it:
    [z.number] and [z.object] of zod 3, [tool] and [invoke] of
    [@langchain/core] 0.3, and [bindTools] of [@langchain/ollama]. *)

From Stdlib Require Import String List Bool ZArith Floats Permutation Lia.
Import ListNotations.
Local Open Scope string_scope.
Local Open Scope list_scope.

(** ** JavaScript values *)

(** What a tool call can carry as [args] (parsed JSON), plus [undefined],
    which is what reading an absent property gives. *)
#[warnings="-register-all"]
Inductive value : Type :=
| VUndefined
| VNull
| VBool (b : bool)
| VNum (n : float)
| VStr (s : string)
| VArr (items : list value)
| VObj (props : list (string * value)).

(** Own properties of an object, in insertion order.  A real object has each
    key once; the first binding is the one a read sees. *)
Fixpoint own {A : Type} (props : list (string * A)) (k : string) : option A :=
  match props with
  | [] => None
  | (k', v) :: rest => if String.eqb k' k then Some v else own rest k
  end.

(** [o[k]] on an object that came out of JSON.  The keys this program reads
    from such objects ([a], [b], [type], [args], [id],
    [lc_direct_tool_output]) are not members of [Object.prototype], so the
    read is decided by the own properties. *)
Definition Get (props : list (string * value)) (k : string) : value :=
  match own props k with
  | Some v => v
  | None => VUndefined
  end.

(** Members every object literal inherits from [Object.prototype]. *)
Definition Object_prototype : list string :=
  [ "constructor"; "__defineGetter__"; "__defineSetter__"; "hasOwnProperty";
    "__lookupGetter__"; "__lookupSetter__"; "isPrototypeOf";
    "propertyIsEnumerable"; "toString"; "valueOf"; "__proto__";
    "toLocaleString" ].

Definition mem (k : string) (ks : list string) : bool :=
  existsb (String.eqb k) ks.

(** JavaScript truthiness. *)
Definition truthy (v : value) : bool :=
  match v with
  | VUndefined | VNull => false
  | VBool b => b
  | VNum n => negb (PrimFloat.is_nan n || PrimFloat.is_zero n)
  | VStr s => negb (String.eqb s "")
  | VArr _ | VObj _ => true
  end.

(** Exceptions, by class.  A [ToolInputParsingException] is known here by
    its class alone: its message and its [output] field (the JSON text of
    the refused input) are left out.  [Error] stands for what the function
    of a tool may throw. *)
Inductive JsError : Type :=
| TypeError (message : string)
| ToolInputParsingException
| Error (message : string).

(** An awaited promise either resolves to a value or rejects; [await] on a
    rejected promise throws the reason. *)
Inductive Promise (A : Type) : Type :=
| Resolved (a : A)
| Rejected (reason : JsError).
Arguments Resolved {A} a.
Arguments Rejected {A} reason.

(** ** zod 3: [z.number()] and [z.object({...})] *)

Module Zod.

Inductive ZodParsedType : Type :=
| string_t | nan_t | number_t | boolean_t | undefined_t | null_t
| array_t | object_t.

(** [getParsedType]: [typeof], with [NaN], [null] and arrays told apart. *)
Definition getParsedType (data : value) : ZodParsedType :=
  match data with
  | VUndefined => undefined_t
  | VNull => null_t
  | VBool _ => boolean_t
  | VNum n => if PrimFloat.is_nan n then nan_t else number_t
  | VStr _ => string_t
  | VArr _ => array_t
  | VObj _ => object_t
  end.

Inductive ZodIssueCode : Type :=
| invalid_type (expected received : ZodParsedType)
| unrecognized_keys (keys : list string).

Record ZodIssue : Type := { code : ZodIssueCode; path : list string }.

Inductive SafeParse (A : Type) : Type :=
| success (data : A)
| error (issues : list ZodIssue).
Arguments success {A} data.
Arguments error {A} issues.

Definition issues_of {A : Type} (r : SafeParse A) : list ZodIssue :=
  match r with
  | success _ => []
  | error issues => issues
  end.

(** [z.number()] with no checks and no coercion: the parsed type must be
    [number]; a string, however numeric it looks, is not. *)
Definition number_parse (path : list string) (input : value) : SafeParse float :=
  match input with
  | VNum n =>
      if PrimFloat.is_nan n
      then error [ {| code := invalid_type number_t nan_t; path := path |} ]
      else success n
  | _ => error [ {| code := invalid_type number_t (getParsedType input);
                    path := path |} ]
  end.

(** One member of an object shape: [key: z.number().describe(description)]. *)
Record ZodField : Type := { key : string; description : string }.

(** [z.object({...})] over number members, with zod's defaults: unknown
    keys are stripped ([unknownKeys: "strip"]), that is, never looked at.
    The members stand in the order in which [Object.keys] lists the shape,
    which is the written order for names that are not integer-like. *)
Definition ZodObject : Type := list ZodField.

(** The object a successful parse returns: one number per shape key. *)
Definition Output : Type := list (string * float).

(** Every shape key is parsed, in shape order, against [data[key]]; the
    issues of all members are collected; the output is built from the
    shape keys alone. *)
Fixpoint shape_parse (shape : ZodObject) (data : list (string * value))
  : SafeParse Output :=
  match shape with
  | [] => success []
  | f :: shape' =>
      match number_parse [key f] (Get data (key f)), shape_parse shape' data with
      | success n, success out => success ((key f, n) :: out)
      | r, rs => error (issues_of r ++ issues_of rs)
      end
  end.

Definition safeParse (schema : ZodObject) (input : value) : SafeParse Output :=
  match input with
  | VObj data => shape_parse schema data
  | _ => error [ {| code := invalid_type object_t (getParsedType input);
                    path := [] |} ]
  end.

End Zod.
Import Zod.

(** [const calculationSchema = z.object({ a: ..., b: ... })] *)
Definition calculationSchema : ZodObject :=
  [ {| key := "a"; description := "first number" |};
    {| key := "b"; description := "second number" |} ].

(** ** LangchainJS tools ([@langchain/core] 0.3) *)

(** The content of a [ToolMessage]: what the function returned, as it is,
    when that is a string or an array of objects; otherwise its JSON text,
    [JSON.stringify(v, null, 2)], written here [Stringified v]: the text is
    named by the value it is the text of, not computed. *)
Inductive MessageContent : Type :=
| AsIs (v : value)
| Stringified (v : value).

(** What [tool.invoke] resolves to: the function's return value, or a
    [ToolMessage] when the input was itself a tool call with an id. *)
Inductive ToolOutput : Type :=
| Content (v : value)
| ToolMessage (content : MessageContent) (tool_call_id : value) (name : string).

Module Tool.
Record t : Type := {
  name : string;
  description : string;
  schema : ZodObject;
  func : Output -> Promise value
}.
End Tool.

(** The second argument of [tool(func, fields)]. *)
Module ToolFields.
Record t : Type := {
  name : string;
  description : string;
  schema : ZodObject
}.
End ToolFields.

Definition tool (func : Output -> Promise value) (fields : ToolFields.t) : Tool.t :=
  {| Tool.name := ToolFields.name fields;
     Tool.description := ToolFields.description fields;
     Tool.schema := ToolFields.schema fields;
     Tool.func := func |}.

(** [x && typeof x === "object" && "type" in x && x.type === "tool_call"] *)
Definition _isToolCall (x : value) : bool :=
  match x with
  | VObj props =>
      match Get props "type" with
      | VStr s => String.eqb s "tool_call"
      | _ => false
      end
  | _ => false
  end.

Definition isDirectToolOutput (x : value) : bool :=
  match x with
  | VObj props =>
      match Get props "lc_direct_tool_output" with
      | VBool b => b
      | _ => false
      end
  | _ => false
  end.

(** [typeof content === "string" ||
     (Array.isArray(content) && content.every((item) => typeof item === "object"))] *)
Definition message_ready (content : value) : bool :=
  match content with
  | VStr _ => true
  | VArr items =>
      forallb (fun item => match item with
                           | VNull | VArr _ | VObj _ => true
                           | _ => false
                           end) items
  | _ => false
  end.

Definition _formatToolOutput (content toolCallId : value) (name : string) : ToolOutput :=
  if truthy toolCallId && negb (isDirectToolOutput content)
  then ToolMessage (if message_ready content then AsIs content
                    else Stringified content) toolCallId name
  else Content content.

(** A tool call is unwrapped to its [args]: once by [invoke]
    ([toolInput]), and once more by [call] ([inputForValidation]). *)
Definition toolInput (input : value) : value :=
  match input with
  | VObj props => if _isToolCall input then Get props "args" else input
  | _ => input
  end.

Definition inputForValidation (arg : value) : value :=
  match arg with
  | VObj props => if _isToolCall arg then Get props "args" else arg
  | _ => arg
  end.

(** [config.toolCall] has an [id] that is a string; [toolCall] is
    [undefined] when [invoke] did not set it. *)
Definition _configHasToolCallId (toolCall : value) : bool :=
  match toolCall with
  | VObj props =>
      match Get props "id" with
      | VStr _ => true
      | _ => false
      end
  | _ => false
  end.

(** The id the output is tagged with: that of [arg] when [arg] is itself a
    tool call, else, when that is falsy, the string id of [config.toolCall]. *)
Definition toolCallId_of (arg toolCall : value) : value :=
  let toolCallId :=
    match arg with
    | VObj props => if _isToolCall arg then Get props "id" else VUndefined
    | _ => VUndefined
    end in
  if negb (truthy toolCallId) && _configHasToolCallId toolCall
  then match toolCall with
       | VObj props => Get props "id"
       | _ => toolCallId
       end
  else toolCallId.

(** [StructuredTool.call(arg, config)], with [toolCall] for
    [config.toolCall]: the input for validation is parsed with the tool's
    schema; a parse failure is rethrown as a [ToolInputParsingException];
    otherwise the function runs on the parsed object, what it throws is
    rethrown, and what it returns is formatted. *)
Definition call (t : Tool.t) (arg toolCall : value) : Promise ToolOutput :=
  match safeParse (Tool.schema t) (inputForValidation arg) with
  | error _ => Rejected ToolInputParsingException
  | success parsed =>
      match Tool.func t parsed with
      | Rejected e => Rejected e
      | Resolved content =>
          Resolved (_formatToolOutput content (toolCallId_of arg toolCall)
                      (Tool.name t))
      end
  end.

(** [StructuredTool.invoke(input)]: a tool call is passed on as its [args],
    and is remembered as [config.toolCall]. *)
Definition invoke (t : Tool.t) (input : value) : Promise ToolOutput :=
  call t (toolInput input) (if _isToolCall input then input else VUndefined).

(** ** The two tools *)

(** The [+] and [*] of the two functions, on operands that are numbers or
    [undefined] (a destructured property that is absent): [ToNumber] of
    [undefined] is [NaN]. *)
Definition ToNumber (v : option float) : float :=
  match v with
  | Some n => n
  | None => PrimFloat.nan
  end.

Definition js_add (x y : option float) : float :=
  PrimFloat.add (ToNumber x) (ToNumber y).

Definition js_mul (x y : option float) : float :=
  PrimFloat.mul (ToNumber x) (ToNumber y).

(** [tool(async ({ a, b }) => { return a + b }, {...})] *)
Definition additionTool : Tool.t :=
  tool (fun input =>
          let a := own input "a" in
          let b := own input "b" in
          Resolved (VNum (js_add a b)))
       {| ToolFields.name := "addition";
          ToolFields.description := "Add numbers.";
          ToolFields.schema := calculationSchema |}.

(** [tool(async ({ a, b }) => { return a * b }, {...})] *)
Definition multiplicationTool : Tool.t :=
  tool (fun input =>
          let a := own input "a" in
          let b := own input "b" in
          Resolved (VNum (js_mul a b)))
       {| ToolFields.name := "multiplication";
          ToolFields.description := "Multiply numbers.";
          ToolFields.schema := calculationSchema |}.

(** ** The catalog bound to the model *)

(** The JSON schema of one parameter and of a parameter object, as
    [zodToJsonSchema] renders a [z.object] of described numbers. *)
Record JsonProperty : Type := { type : string; prop_description : string }.

Record JsonSchema : Type := {
  schema_type : string;
  properties : list (string * JsonProperty);
  required : list string;
  additionalProperties : bool
}.

(** One entry of the tool list sent with the prompt. *)
Record ToolCatalogEntry : Type := {
  entry_type : string;
  function_name : string;
  function_description : string;
  parameters : JsonSchema
}.

Definition zodToJsonSchema (s : ZodObject) : JsonSchema :=
  {| schema_type := "object";
     properties :=
       map (fun f => (key f, {| type := "number";
                                prop_description := description f |})) s;
     required := map key s;
     additionalProperties := false |}.

Definition convertToOpenAITool (t : Tool.t) : ToolCatalogEntry :=
  {| entry_type := "function";
     function_name := Tool.name t;
     function_description := Tool.description t;
     parameters := zodToJsonSchema (Tool.schema t) |}.

(** [llm.bindTools(tools)]: each tool is converted, in the order given. *)
Definition bindTools (tools : list Tool.t) : list ToolCatalogEntry :=
  map convertToOpenAITool tools.

(** [const llmWithTools = llm.bindTools([additionTool, multiplicationTool])] *)
Definition llmWithTools : list ToolCatalogEntry :=
  bindTools [additionTool; multiplicationTool].

(** ** The tool mapping *)

(** An object whose own properties are tools, in the order in which the
    object lists them. *)
Definition ToolObject : Type := list (string * Tool.t).

(** [let toolMapping = { "addition": additionTool,
                         "multiplication": multiplicationTool }]:
    two distinct names, neither integer-like, so the object lists them as
    written. *)
Definition toolMapping : ToolObject :=
  [ ("addition", additionTool); ("multiplication", multiplicationTool) ].

(** What [toolMapping[toolCall.name]] evaluates to: an own property, a
    member inherited from [Object.prototype], or [undefined]. *)
Inductive Member : Type :=
| Own (t : Tool.t)
| Inherited (member : string)
| Undefined.

Definition member_of (o : ToolObject) (k : string) : Member :=
  match own o k with
  | Some t => Own t
  | None => if mem k Object_prototype then Inherited k else Undefined
  end.

(** ** The script *)

Module ToolCall.
Record t : Type := { name : string; args : value }.
End ToolCall.

(** [functionToCall.invoke(toolCall.args)]: only a tool has an [invoke];
    on [undefined] the property read throws, on an inherited member the
    call of its absent [invoke] throws. *)
Definition functionToCall_invoke (functionToCall : Member) (args : value)
  : Promise ToolOutput :=
  match functionToCall with
  | Own t => invoke t args
  | Inherited _ => Rejected (TypeError "functionToCall.invoke is not a function")
  | Undefined =>
      Rejected (TypeError "Cannot read properties of undefined (reading 'invoke')")
  end.

(** One line of console output. *)
Inductive ConsoleLine : Type :=
| Detected (name : string) (args : value)
| ResultFor (name : string) (args : value) (result : ToolOutput).

(** What a run leaves behind: the lines printed, and the exception that
    ended it, if one did (nothing in the script catches). *)
Record Run : Type := { console : list ConsoleLine; uncaught : option JsError }.

(** [for (let toolCall of llmOutput.tool_calls) { console.log("Tool:", ...) }] *)
Definition detected_tools (tool_calls : list ToolCall.t) : list ConsoleLine :=
  map (fun toolCall => Detected (ToolCall.name toolCall) (ToolCall.args toolCall))
      tool_calls.

(** The body of the second loop, up to the [await]. *)
Definition attempt (mapping : ToolObject) (toolCall : ToolCall.t)
  : Promise ToolOutput :=
  let functionToCall := member_of mapping (ToolCall.name toolCall) in
  functionToCall_invoke functionToCall (ToolCall.args toolCall).

(** [for (let toolCall of llmOutput.tool_calls) { ... }], the second loop:
    a rejected [await] throws out of the loop and ends it. *)
Fixpoint invoke_tools (mapping : ToolObject) (tool_calls : list ToolCall.t) : Run :=
  match tool_calls with
  | [] => {| console := []; uncaught := None |}
  | toolCall :: rest =>
      match attempt mapping toolCall with
      | Rejected e => {| console := []; uncaught := Some e |}
      | Resolved result =>
          let r := invoke_tools mapping rest in
          {| console := ResultFor (ToolCall.name toolCall)
                                  (ToolCall.args toolCall) result :: console r;
             uncaught := uncaught r |}
      end
  end.

(** The whole script after the model has answered with [tool_calls]. *)
Definition main (tool_calls : list ToolCall.t) : Run :=
  let r := invoke_tools toolMapping tool_calls in
  {| console := detected_tools tool_calls ++ console r;
     uncaught := uncaught r |}.

(** The request a result line answers. *)
Definition request_of (line : ConsoleLine) : ToolCall.t :=
  match line with
  | Detected name args => {| ToolCall.name := name; ToolCall.args := args |}
  | ResultFor name args _ => {| ToolCall.name := name; ToolCall.args := args |}
  end.

(** A request succeeds when its [await] resolves. *)
Definition succeeds (mapping : ToolObject) (toolCall : ToolCall.t) : bool :=
  match attempt mapping toolCall with
  | Resolved _ => true
  | Rejected _ => false
  end.

(** An argument object [{ a: x, b: y }]. *)
Definition ab (x y : value) : value := VObj [("a", x); ("b", y)].

Definition request (name : string) (args : value) : ToolCall.t :=
  {| ToolCall.name := name; ToolCall.args := args |}.

(** What a promise resolved to, if it did. *)
Definition resolved {A : Type} (p : Promise A) : option A :=
  match p with
  | Resolved a => Some a
  | Rejected _ => None
  end.



(** A result carries a number: bare, or as its JSON text inside a message
    tagged with the tool's name. *)
Definition carries (name : string) (result : ToolOutput) (n : float) : Prop :=
  result = Content (VNum n)
  \/ exists id, result = ToolMessage (Stringified (VNum n)) id name.

(** A shape none of whose keys is a member objects inherit: for such a
    shape [data[key]] is decided by the own properties of [data], as [Get]
    has it. *)
Definition plain_keys (shape : ZodObject) : bool :=
  forallb (fun f => negb (mem (key f) Object_prototype)) shape.

(** The validated arguments as the object the function receives. *)
Definition output_object (out : Output) : value :=
  VObj (map (fun kn => (fst kn, VNum (snd kn))) out).

Example run_readme :
  main [ request "addition" (ab (VNum 30) (VNum 12));
         request "multiplication" (ab (VNum 21) (VNum 2)) ]
  = {| console :=
         [ Detected "addition" (ab (VNum 30) (VNum 12));
           Detected "multiplication" (ab (VNum 21) (VNum 2));
           ResultFor "addition" (ab (VNum 30) (VNum 12)) (Content (VNum 42));
           ResultFor "multiplication" (ab (VNum 21) (VNum 2)) (Content (VNum 42)) ];
       uncaught := None |}.
Proof. reflexivity. Qed.

(** ** The invocation loop *)

Section Loop.

Variable mapping : ToolObject.

Lemma invoke_tools_stop (toolCall : ToolCall.t) (rest : list ToolCall.t) (e : JsError) :
  attempt mapping toolCall = Rejected e ->
  invoke_tools mapping (toolCall :: rest) = {| console := []; uncaught := Some e |}.
Proof. intros H. simpl. rewrite H. reflexivity. Qed.

Lemma invoke_tools_app (pre post : list ToolCall.t) :
  forallb (succeeds mapping) pre = true ->
  invoke_tools mapping (pre ++ post)
  = {| console := console (invoke_tools mapping pre)
                  ++ console (invoke_tools mapping post);
       uncaught := uncaught (invoke_tools mapping post) |}.
Proof.
  induction pre as [|c pre IH]; simpl; intros H.
  - destruct (invoke_tools mapping post); reflexivity.
  - apply andb_prop in H. destruct H as [Hc Hpre].
    unfold succeeds in Hc.
    destruct (attempt mapping c) as [result|e]; [|discriminate].
    rewrite (IH Hpre). reflexivity.
Qed.

Lemma invoke_tools_all (calls : list ToolCall.t) :
  forallb (succeeds mapping) calls = true ->
  uncaught (invoke_tools mapping calls) = None
  /\ map request_of (console (invoke_tools mapping calls)) = calls.
Proof.
  induction calls as [|c calls IH]; simpl; intros H.
  - split; reflexivity.
  - apply andb_prop in H. destruct H as [Hc Hcalls].
    unfold succeeds in Hc.
    destruct (attempt mapping c) as [result|e]; [|discriminate].
    destruct (IH Hcalls) as [Hu Hm]. simpl. split; [exact Hu|].
    rewrite Hm. destruct c; reflexivity.
Qed.

Lemma invoke_tools_first_failure (pre post : list ToolCall.t) (c : ToolCall.t) (e : JsError) :
  forallb (succeeds mapping) pre = true ->
  attempt mapping c = Rejected e ->
  invoke_tools mapping (pre ++ c :: post)
  = {| console := console (invoke_tools mapping pre); uncaught := Some e |}.
Proof.
  intros Hpre Hc. rewrite (invoke_tools_app _ _ Hpre).
  rewrite (invoke_tools_stop _ _ _ Hc). simpl. rewrite app_nil_r. reflexivity.
Qed.

End Loop.

(** Which names the shipped mapping resolves. *)
Lemma toolMapping_own (name : string) :
  own toolMapping name
  = if String.eqb "addition" name then Some additionTool
    else if String.eqb "multiplication" name then Some multiplicationTool
    else None.
Proof. reflexivity. Qed.

Lemma unregistered_name_throws (name : string) (args : value) :
  name <> "addition" -> name <> "multiplication" ->
  exists message,
    attempt toolMapping (request name args) = Rejected (TypeError message).
Proof.
  intros Ha Hm. unfold attempt, member_of. simpl ToolCall.name.
  rewrite toolMapping_own.
  destruct (String.eqb_spec "addition" name) as [E|_]; [congruence|].
  destruct (String.eqb_spec "multiplication" name) as [E|_]; [congruence|].
  destruct (mem name Object_prototype); simpl; eexists; reflexivity.
Qed.

Lemma attempt_shipped (c : ToolCall.t) :
  attempt toolMapping c
  = if String.eqb "addition" (ToolCall.name c)
    then invoke additionTool (ToolCall.args c)
    else if String.eqb "multiplication" (ToolCall.name c)
    then invoke multiplicationTool (ToolCall.args c)
    else functionToCall_invoke
           (if mem (ToolCall.name c) Object_prototype
            then Inherited (ToolCall.name c) else Undefined)
           (ToolCall.args c).
Proof.
  unfold attempt, member_of. rewrite toolMapping_own.
  destruct (String.eqb "addition" (ToolCall.name c)); [reflexivity|].
  destruct (String.eqb "multiplication" (ToolCall.name c)); reflexivity.
Qed.

(** An input that is not shaped like a tool call goes to the schema and to
    the function as it is, and the output is the bare return value. *)
Lemma invoke_plain (t : Tool.t) (input : value) :
  _isToolCall input = false ->
  invoke t input
  = match safeParse (Tool.schema t) input with
    | error _ => Rejected ToolInputParsingException
    | success parsed =>
        match Tool.func t parsed with
        | Rejected e => Rejected e
        | Resolved content => Resolved (Content content)
        end
    end.
Proof.
  intros H. unfold invoke. rewrite H.
  assert (Hin : toolInput input = input)
    by (destruct input; try reflexivity; unfold toolInput; rewrite H; reflexivity).
  assert (Hval : inputForValidation input = input)
    by (destruct input; try reflexivity;
        unfold inputForValidation; rewrite H; reflexivity).
  assert (Hid : toolCallId_of input VUndefined = VUndefined)
    by (destruct input; try reflexivity;
        unfold toolCallId_of; rewrite H; reflexivity).
  unfold call. rewrite Hin, Hval, Hid.
  destruct (safeParse (Tool.schema t) input) as [parsed|issues]; [|reflexivity].
  destruct (Tool.func t parsed); reflexivity.
Qed.



(** ** C1: one result per request, in order *)




(** ** C2: a name that does not resolve *)

(** C2, as the spec states it, fails: the scenario [[{unknownTool, {}}]]
    raises a [TypeError] and leaves no result. *)
Lemma unknown_tool_counterexample :
  let r := invoke_tools toolMapping [ request "unknownTool" (VObj []) ] in
  console r = []
  /\ uncaught r
     = Some (TypeError "Cannot read properties of undefined (reading 'invoke')")
  /\ uncaught r <> None.
Proof. simpl. repeat split. discriminate. Qed.

(** C2 (amended): a request whose name is not a key of the tool mapping
    makes the loop raise a [TypeError]; the results of the requests before it
    have been produced and the requests after it are not processed. *)
Theorem unknown_tool_raises :
  forall (pre post : list ToolCall.t) (name : string) (args : value),
    forallb (succeeds toolMapping) pre = true ->
    name <> "addition" -> name <> "multiplication" ->
    let r := invoke_tools toolMapping (pre ++ request name args :: post) in
    map request_of (console r) = pre
    /\ exists message, uncaught r = Some (TypeError message).
Proof.
  intros pre post name args Hpre Ha Hm r. subst r.
  destruct (unregistered_name_throws name args Ha Hm) as [message Hc].
  rewrite (invoke_tools_first_failure toolMapping pre post _ _ Hpre Hc). simpl.
  split; [apply (invoke_tools_all toolMapping pre Hpre)|].
  exists message. reflexivity.
Qed.

Lemma unknown_tool_raises_witness :
  let pre := [ request "addition" (ab (VNum 30) (VNum 12)) ] in
  let post := [ request "multiplication" (ab (VNum 21) (VNum 2)) ] in
  let r := invoke_tools toolMapping (pre ++ request "toString" (VObj []) :: post) in
  map request_of (console r) = pre
  /\ exists message, uncaught r = Some (TypeError message).
Proof.
  intros pre post.
  apply (unknown_tool_raises pre post "toString" (VObj []));
    [reflexivity | discriminate | discriminate].
Defined.

(** ** The schema *)

Lemma number_parse_success (p : list string) (v : value) (n : float) :
  number_parse p v = success n <-> v = VNum n /\ PrimFloat.is_nan n = false.
Proof.
  split.
  - destruct v; simpl; try discriminate.
    destruct (PrimFloat.is_nan n0) eqn:E; [discriminate|].
    intros H. injection H as <-. split; [reflexivity|exact E].
  - intros [-> E]. simpl. rewrite E. reflexivity.
Qed.

Lemma Get_number (props : list (string * value)) (k : string) (n : float) :
  Get props k = VNum n <-> own props k = Some (VNum n).
Proof.
  unfold Get. destruct (own props k) as [v|]; split; intros H;
    try discriminate; congruence.
Qed.

(** The output of a successful parse has the keys of the shape, in shape
    order, whatever keys the input had. *)
Lemma shape_parse_keys (shape : ZodObject) (data : list (string * value)) (out : Output) :
  shape_parse shape data = success out -> map fst out = map key shape.
Proof.
  revert out. induction shape as [|f shape IH]; intros out; simpl.
  - intros H. injection H as <-. reflexivity.
  - destruct (number_parse [key f] (Get data (key f))) as [n|i];
      destruct (shape_parse shape data) as [o|j]; try discriminate.
    intros H. injection H as <-. simpl. f_equal. apply IH. reflexivity.
Qed.

(** ** C4: keys the schema does not declare *)

(** C4, as the spec states it, fails: a mapping with the undeclared key [c]
    is accepted, and [c] is dropped without a word. *)
Lemma unknown_argument_counterexample :
  safeParse calculationSchema
    (VObj [("a", VNum 1); ("b", VNum 2); ("c", VNum 3)])
  = success [("a", 1%float); ("b", 2%float)].
Proof. reflexivity. Qed.

(** C4 (amended): validation looks at [a] and [b] only.  A mapping is
    accepted exactly when it is an object whose [a] and [b] hold numbers
    (not [NaN]), whatever other keys it has; undeclared keys are stripped,
    never reported; the validated arguments then contain exactly the
    declared keys [a] and [b], with the values given. *)
Theorem calculationSchema_accepts :
  forall (input : value) (out : Output),
    safeParse calculationSchema input = success out <->
    exists (props : list (string * value)) (x y : float),
      input = VObj props
      /\ own props "a" = Some (VNum x) /\ own props "b" = Some (VNum y)
      /\ PrimFloat.is_nan x = false /\ PrimFloat.is_nan y = false
      /\ out = [("a", x); ("b", y)]
      /\ map fst out = map key calculationSchema.
Proof.
  intros input out. split.
  - destruct input as [| | | | | |props]; try discriminate.
    unfold safeParse, calculationSchema, shape_parse. cbn [key].
    destruct (number_parse ["a"] (Get props "a")) as [x|i] eqn:Ea;
      destruct (number_parse ["b"] (Get props "b")) as [y|j] eqn:Eb;
      try discriminate.
    intros H. injection H as <-.
    apply number_parse_success in Ea, Eb.
    destruct Ea as [Ea Na], Eb as [Eb Nb].
    apply Get_number in Ea, Eb.
    exists props, x, y. repeat split; assumption.
  - intros (props & x & y & -> & Ea & Eb & Na & Nb & -> & _).
    apply Get_number in Ea, Eb.
    unfold safeParse, calculationSchema, shape_parse. cbn [key].
    rewrite Ea, Eb. simpl. rewrite Na, Nb. reflexivity.
Qed.

Lemma calculationSchema_accepts_witness :
  safeParse calculationSchema
    (VObj [("extra", VStr "ignored"); ("b", VNum 2); ("a", VNum 1)])
  = success [("a", 1%float); ("b", 2%float)].
Proof.
  apply (proj2 (calculationSchema_accepts _ _)).
  exists [("extra", VStr "ignored"); ("b", VNum 2); ("a", VNum 1)], 1%float, 2%float.
  repeat split; reflexivity.
Defined.

(** ** C5: a string where a number is declared *)

(** C5, as the spec states it, fails: the request leaves no result; the
    loop ends on the exception the tool raised. *)
Lemma string_argument_counterexample :
  invoke_tools toolMapping [ request "addition" (ab (VStr "x") (VNum 1)) ]
  = {| console := []; uncaught := Some ToolInputParsingException |}.
Proof. reflexivity. Qed.

(** C5 (amended): validating an argument object whose [a] holds a string,
    numeric looking or not, reports a type mismatch at field [a] (expected
    number, received string), first among the issues.  When the object is
    not itself shaped like a tool call, the addition tool invoked on it
    raises an input-parsing error, and dispatching the request yields no
    result: the loop ends on that error. *)
Theorem string_argument_is_a_type_mismatch :
  forall (props : list (string * value)) (s : string),
    own props "a" = Some (VStr s) ->
    (exists rest,
        safeParse calculationSchema (VObj props)
        = error ({| code := invalid_type number_t string_t; path := ["a"] |} :: rest))
    /\ (_isToolCall (VObj props) = false ->
        invoke additionTool (VObj props) = Rejected ToolInputParsingException
        /\ invoke_tools toolMapping [ request "addition" (VObj props) ]
           = {| console := []; uncaught := Some ToolInputParsingException |}).
Proof.
  intros props s Ha.
  assert (Hparse : exists rest,
             safeParse calculationSchema (VObj props)
             = error ({| code := invalid_type number_t string_t; path := ["a"] |}
                        :: rest)).
  { unfold safeParse, calculationSchema, shape_parse. cbn [key].
    unfold Get at 1. rewrite Ha. simpl. eexists. reflexivity. }
  split; [exact Hparse|]. intros Htc.
  assert (Hinvoke : invoke additionTool (VObj props)
                    = Rejected ToolInputParsingException).
  { destruct Hparse as [rest Hparse]. rewrite (invoke_plain _ _ Htc).
    change (Tool.schema additionTool) with calculationSchema.
    rewrite Hparse. reflexivity. }
  split; [exact Hinvoke|].
  apply invoke_tools_stop. rewrite attempt_shipped. exact Hinvoke.
Qed.

Lemma string_argument_is_a_type_mismatch_witness :
  (exists rest,
      safeParse calculationSchema
        (VObj [("note", VStr "thirty"); ("a", VStr "30"); ("b", VNum 12)])
      = error ({| code := invalid_type number_t string_t; path := ["a"] |} :: rest))
  /\ (_isToolCall (VObj [("note", VStr "thirty"); ("a", VStr "30"); ("b", VNum 12)])
      = false ->
      invoke additionTool
        (VObj [("note", VStr "thirty"); ("a", VStr "30"); ("b", VNum 12)])
      = Rejected ToolInputParsingException
      /\ invoke_tools toolMapping
           [ request "addition"
               (VObj [("note", VStr "thirty"); ("a", VStr "30"); ("b", VNum 12)]) ]
         = {| console := []; uncaught := Some ToolInputParsingException |}).
Proof.
  apply (string_argument_is_a_type_mismatch
           [("note", VStr "thirty"); ("a", VStr "30"); ("b", VNum 12)] "30").
  reflexivity.
Defined.

Example numeric_looking_string :
  safeParse calculationSchema (ab (VStr "30") (VNum 12))
  = error [ {| code := invalid_type number_t string_t; path := ["a"] |} ].
Proof. reflexivity. Qed.

(** ** C6: the scenario of the README *)

(** C6: with the mapping of addition and multiplication, the requests
    [addition {a:30, b:12}] and [multiplication {a:21, b:2}] yield the
    results 42 and 42, in that order, and the loop ends normally. *)
Theorem dispatch_readme_scenario :
  invoke_tools toolMapping
    [ request "addition" (ab (VNum 30) (VNum 12));
      request "multiplication" (ab (VNum 21) (VNum 2)) ]
  = {| console :=
         [ ResultFor "addition" (ab (VNum 30) (VNum 12)) (Content (VNum 42));
           ResultFor "multiplication" (ab (VNum 21) (VNum 2)) (Content (VNum 42)) ];
       uncaught := None |}.
Proof. reflexivity. Qed.

(** ** C8: the same request twice *)

(** C8: a request that succeeds, dispatched twice in sequence, yields two
    results that carry the same value, and the loop ends normally. *)
Theorem same_request_twice :
  forall c : ToolCall.t,
    succeeds toolMapping c = true ->
    exists result : ToolOutput,
      invoke_tools toolMapping [c; c]
      = {| console := [ ResultFor (ToolCall.name c) (ToolCall.args c) result;
                        ResultFor (ToolCall.name c) (ToolCall.args c) result ];
           uncaught := None |}.
Proof.
  intros c Hc. unfold succeeds in Hc.
  destruct (attempt toolMapping c) as [result|e] eqn:E; [|discriminate].
  exists result. simpl. rewrite E. reflexivity.
Qed.

Lemma same_request_twice_witness :
  exists result : ToolOutput,
    invoke_tools toolMapping
      [ request "multiplication" (ab (VNum 21) (VNum 2));
        request "multiplication" (ab (VNum 21) (VNum 2)) ]
    = {| console :=
           [ ResultFor "multiplication" (ab (VNum 21) (VNum 2)) result;
             ResultFor "multiplication" (ab (VNum 21) (VNum 2)) result ];
         uncaught := None |}.
Proof.
  apply (same_request_twice (request "multiplication" (ab (VNum 21) (VNum 2)))).
  reflexivity.
Defined.

(** ** C9: the catalog *)

(** C9: the catalog bound to the model lists one entry per tool in the order
    the tools were given; binding addition then multiplication gives the
    addition entry followed by the multiplication entry. *)
Theorem catalog_in_registration_order :
  (forall tools : list Tool.t,
      map function_name (bindTools tools) = map Tool.name tools)
  /\ llmWithTools
     = [ convertToOpenAITool additionTool; convertToOpenAITool multiplicationTool ]
  /\ map function_name llmWithTools = ["addition"; "multiplication"].
Proof.
  split; [|split; reflexivity].
  intros tools. unfold bindTools. rewrite map_map. reflexivity.
Qed.

Example addition_entry :
  convertToOpenAITool additionTool
  = {| entry_type := "function";
       function_name := "addition";
       function_description := "Add numbers.";
       parameters :=
         {| schema_type := "object";
            properties :=
              [ ("a", {| type := "number"; prop_description := "first number" |});
                ("b", {| type := "number"; prop_description := "second number" |}) ];
            required := ["a"; "b"];
            additionalProperties := false |} |}.
Proof. reflexivity. Qed.

(** ** C10: the two operands can be swapped *)

Lemma SFadd_comm (prec emax : Z) (x y : spec_float) :
  SFadd prec emax x y = SFadd prec emax y x.
Proof.
  destruct x as [sx|sx| |sx mx ex], y as [sy|sy| |sy my ey]; simpl;
    try reflexivity; try (destruct sx, sy; reflexivity).
  rewrite Z.min_comm, Z.add_comm. reflexivity.
Qed.

Lemma SFmul_comm (prec emax : Z) (x y : spec_float) :
  SFmul prec emax x y = SFmul prec emax y x.
Proof.
  destruct x as [sx|sx| |sx mx ex], y as [sy|sy| |sy my ey]; simpl;
    try reflexivity; try (rewrite xorb_comm; reflexivity).
  rewrite xorb_comm, Pos.mul_comm, Z.add_comm. reflexivity.
Qed.

Lemma float_add_comm (x y : float) : PrimFloat.add x y = PrimFloat.add y x.
Proof.
  rewrite <- (SF2Prim_Prim2SF (PrimFloat.add x y)).
  rewrite <- (SF2Prim_Prim2SF (PrimFloat.add y x)).
  rewrite !add_spec. unfold SF64add. rewrite SFadd_comm. reflexivity.
Qed.

Lemma float_mul_comm (x y : float) : PrimFloat.mul x y = PrimFloat.mul y x.
Proof.
  rewrite <- (SF2Prim_Prim2SF (PrimFloat.mul x y)).
  rewrite <- (SF2Prim_Prim2SF (PrimFloat.mul y x)).
  rewrite !mul_spec. unfold SF64mul. rewrite SFmul_comm. reflexivity.
Qed.

Lemma js_add_comm (x y : option float) : js_add x y = js_add y x.
Proof. apply float_add_comm. Qed.

Lemma js_mul_comm (x y : option float) : js_mul x y = js_mul y x.
Proof. apply float_mul_comm. Qed.

(** What invoking a shipped tool on [{a: x, b: y}] gives. *)
Lemma invoke_addition (x y : float) :
  invoke additionTool (ab (VNum x) (VNum y))
  = if PrimFloat.is_nan x || PrimFloat.is_nan y
    then Rejected ToolInputParsingException
    else Resolved (Content (VNum (PrimFloat.add x y))).
Proof.
  rewrite invoke_plain by reflexivity. simpl.
  destruct (PrimFloat.is_nan x), (PrimFloat.is_nan y); reflexivity.
Qed.

Lemma invoke_multiplication (x y : float) :
  invoke multiplicationTool (ab (VNum x) (VNum y))
  = if PrimFloat.is_nan x || PrimFloat.is_nan y
    then Rejected ToolInputParsingException
    else Resolved (Content (VNum (PrimFloat.mul x y))).
Proof.
  rewrite invoke_plain by reflexivity. simpl.
  destruct (PrimFloat.is_nan x), (PrimFloat.is_nan y); reflexivity.
Qed.

(** C10: for all numbers [x] and [y], the addition tool invoked on
    [{a: x, b: y}] returns what it returns on [{a: y, b: x}], and so does the
    multiplication tool; the same holds of the two functions on the
    validated arguments. *)
Theorem shipped_tools_commute :
  forall x y : float,
    resolved (invoke additionTool (ab (VNum x) (VNum y)))
    = resolved (invoke additionTool (ab (VNum y) (VNum x)))
    /\ resolved (invoke multiplicationTool (ab (VNum x) (VNum y)))
       = resolved (invoke multiplicationTool (ab (VNum y) (VNum x)))
    /\ Tool.func additionTool [("a", x); ("b", y)]
       = Tool.func additionTool [("a", y); ("b", x)]
    /\ Tool.func multiplicationTool [("a", x); ("b", y)]
       = Tool.func multiplicationTool [("a", y); ("b", x)].
Proof.
  intros x y. rewrite !invoke_addition, !invoke_multiplication.
  rewrite (orb_comm (PrimFloat.is_nan y)).
  rewrite (float_add_comm y x), (float_mul_comm y x).
  split; [reflexivity|]. split; [reflexivity|]. split.
  - simpl. rewrite (js_add_comm (Some x)). reflexivity.
  - simpl. rewrite (js_mul_comm (Some x)). reflexivity.
Qed.

(** * Further properties of the script *)

(** ** The two loops together *)

Lemma firstn_length_app {A : Type} (l l' : list A) :
  firstn (List.length l) (l ++ l') = l.
Proof. induction l as [|x l IH]; simpl; [destruct l'|rewrite IH]; reflexivity. Qed.

Lemma skipn_length_app {A : Type} (l l' : list A) :
  skipn (List.length l) (l ++ l') = l'.
Proof. induction l as [|x l IH]; simpl; [reflexivity|exact IH]. Qed.

Lemma detected_tools_requests (calls : list ToolCall.t) :
  map request_of (detected_tools calls) = calls.
Proof.
  induction calls as [|c calls IH]; [reflexivity|].
  change (request_of (Detected (ToolCall.name c) (ToolCall.args c))
            :: map request_of (detected_tools calls) = c :: calls).
  rewrite IH. destruct c; reflexivity.
Qed.

Lemma invoke_tools_length (mapping : ToolObject) (calls : list ToolCall.t) :
  List.length (console (invoke_tools mapping calls)) <= List.length calls
  /\ (uncaught (invoke_tools mapping calls) = None <->
      List.length (console (invoke_tools mapping calls)) = List.length calls).
Proof.
  induction calls as [|c calls [IHle IHiff]]; simpl.
  - split; [lia|]. split; reflexivity.
  - destruct (attempt mapping c) as [result|e]; simpl.
    + split; [lia|]. rewrite IHiff. split; lia.
    + split; [lia|]. split; discriminate.
Qed.

(** X1: whatever the model returned, the script first prints one detection
    line per tool call, in the order of the calls, and only then the result
    lines; a failing invocation does not take a detection line away.  The
    console holds at most two lines per call, and exactly two per call
    precisely when the script ends normally. *)
Theorem main_console_layout :
  forall calls : list ToolCall.t,
    let r := main calls in
    let n := List.length calls in
    firstn n (console r) = detected_tools calls
    /\ map request_of (firstn n (console r)) = calls
    /\ skipn n (console r) = console (invoke_tools toolMapping calls)
    /\ List.length (console r) <= 2 * n
    /\ (uncaught r = None <-> List.length (console r) = 2 * n).
Proof.
  intros calls r n.
  assert (Hn : List.length (detected_tools calls) = n)
    by (unfold detected_tools; apply length_map).
  assert (Hfirst : firstn n (console r) = detected_tools calls).
  { subst r. unfold main. cbn [console]. rewrite <- Hn. apply firstn_length_app. }
  split; [exact Hfirst|]. split; [rewrite Hfirst; apply detected_tools_requests|].
  split; [subst r; unfold main; cbn [console]; rewrite <- Hn; apply skipn_length_app|].
  destruct (invoke_tools_length toolMapping calls) as [Hle Hiff].
  subst r. unfold main. cbn [console uncaught]. rewrite length_app, Hn.
  fold n in Hle, Hiff. split; [lia|]. rewrite Hiff. split; lia.
Qed.

(** ** The errors a run can end with *)





(** ** What a refused input is told *)




Lemma safeParse_root (schema : ZodObject) (input : value) :
  (forall props, input <> VObj props) ->
  safeParse schema input
  = error [ {| code := invalid_type object_t (getParsedType input); path := [] |} ]
  /\ getParsedType input <> object_t.
Proof.
  intros Hno. destruct input as [| | |n| | |props];
    try (split; [reflexivity|discriminate]).
  - split; [reflexivity|]. simpl. destruct (PrimFloat.is_nan n); discriminate.
  - exfalso. apply (Hno props). reflexivity.
Qed.



(** ** What the catalog promises and what validation enforces *)

Lemma shape_parse_missing (shape : ZodObject) (data : list (string * value)) (k : string) :
  In k (map key shape) ->
  own data k = None ->
  exists issues,
    shape_parse shape data = error issues
    /\ In {| code := invalid_type number_t undefined_t; path := [k] |} issues.
Proof.
  intros Hk Hown.
  assert (Hnum : number_parse [k] (Get data k)
                 = error [ {| code := invalid_type number_t undefined_t;
                              path := [k] |} ]).
  { unfold Get. rewrite Hown. reflexivity. }
  induction shape as [|f shape IH]; simpl in Hk; [contradiction|]. simpl.
  destruct Hk as [<- | Hk].
  - rewrite Hnum. eexists. split; [reflexivity|]. left. reflexivity.
  - destruct (IH Hk) as (issues & -> & Hin).
    destruct (number_parse [key f] (Get data (key f))) as [n|i1];
      eexists; (split; [reflexivity|]); simpl; [exact Hin|].
    apply in_or_app. right. exact Hin.
Qed.

(** X4: every parameter a catalog entry shows is listed as required, and
    what is listed as required is enforced: an argument object that lacks a
    required parameter is refused by the tool's schema, with an issue at that
    parameter saying a number was expected and nothing was there. *)
Theorem required_parameters_are_enforced :
  forall (t : Tool.t) (k : string) (props : list (string * value)),
    let schema := parameters (convertToOpenAITool t) in
    plain_keys (Tool.schema t) = true ->
    In k (required schema) ->
    own props k = None ->
    map fst (properties schema) = required schema
    /\ exists issues,
         safeParse (Tool.schema t) (VObj props) = error issues
         /\ In {| code := invalid_type number_t undefined_t; path := [k] |} issues.
Proof.
  intros t k props schema _ Hk Hown. subst schema. simpl in *.
  split; [rewrite map_map; reflexivity|].
  apply shape_parse_missing; assumption.
Qed.

Lemma required_parameters_are_enforced_witness :
  map fst (properties (parameters (convertToOpenAITool multiplicationTool)))
  = required (parameters (convertToOpenAITool multiplicationTool))
  /\ exists issues,
       safeParse (Tool.schema multiplicationTool) (VObj [("a", VNum 21)])
       = error issues
       /\ In {| code := invalid_type number_t undefined_t; path := ["b"] |} issues.
Proof.
  apply (required_parameters_are_enforced multiplicationTool "b" [("a", VNum 21)]).
  - reflexivity.
  - right. left. reflexivity.
  - reflexivity.
Defined.

(** ** The order of the properties of an argument object *)

Lemma own_Permutation {A : Type} (l l' : list (string * A)) (k : string) :
  Permutation l l' -> NoDup (map fst l) -> own l k = own l' k.
Proof.
  induction 1 as [|[k1 v1] l l' HP IH|[k1 v1] [k2 v2] l|l l' l'' HP1 IH1 HP2 IH2];
    intros Hnd.
  - reflexivity.
  - simpl in *. inversion Hnd as [|? ? _ Hnd']; subst.
    destruct (String.eqb k1 k); [reflexivity|apply IH; exact Hnd'].
  - simpl in *. inversion Hnd as [|? ? Hnotin _]; subst.
    destruct (String.eqb_spec k2 k) as [->|_], (String.eqb_spec k1 k) as [->|_];
      try reflexivity.
    exfalso. apply Hnotin. left. reflexivity.
  - rewrite (IH1 Hnd). apply IH2.
    apply (Permutation_NoDup (l := map fst l)); [|exact Hnd].
    apply Permutation_map. exact HP1.
Qed.

Lemma shape_parse_ext (shape : ZodObject) (data data' : list (string * value)) :
  (forall k, Get data k = Get data' k) ->
  shape_parse shape data = shape_parse shape data'.
Proof.
  intros Hget. induction shape as [|f shape IH]; simpl; [reflexivity|].
  rewrite IH, Hget. reflexivity.
Qed.

(** X5: the order in which an argument object lists its properties does
    not matter: two objects with the same properties in a different order
    are validated to the same outcome by any tool's schema, and invoking any
    tool on them resolves to the same output or rejects both. *)
Theorem property_order_is_irrelevant :
  forall (t : Tool.t) (props props' : list (string * value)),
    plain_keys (Tool.schema t) = true ->
    Permutation props props' ->
    NoDup (map fst props) ->
    safeParse (Tool.schema t) (VObj props) = safeParse (Tool.schema t) (VObj props')
    /\ resolved (invoke t (VObj props)) = resolved (invoke t (VObj props')).
Proof.
  intros t props props' _ HP Hnd.
  assert (Hget : forall k, Get props k = Get props' k).
  { intros k. unfold Get. rewrite (own_Permutation props props' k HP Hnd). reflexivity. }
  assert (Hparse : safeParse (Tool.schema t) (VObj props)
                   = safeParse (Tool.schema t) (VObj props')).
  { simpl. apply shape_parse_ext. exact Hget. }
  split; [exact Hparse|].
  assert (Htc : _isToolCall (VObj props') = _isToolCall (VObj props))
    by (unfold _isToolCall; rewrite (Hget "type"); reflexivity).
  unfold invoke, toolInput. rewrite Htc.
  destruct (_isToolCall (VObj props)) eqn:E.
  - rewrite <- (Hget "args").
    assert (Hid : toolCallId_of (Get props "args") (VObj props')
                  = toolCallId_of (Get props "args") (VObj props))
      by (unfold toolCallId_of, _configHasToolCallId;
          rewrite (Hget "id"); reflexivity).
    unfold call. rewrite Hid. reflexivity.
  - unfold call, inputForValidation, toolCallId_of. rewrite Htc, E, <- Hparse.
    reflexivity.
Qed.

Lemma property_order_is_irrelevant_witness :
  safeParse (Tool.schema additionTool) (VObj [("b", VNum 12); ("a", VNum 30)])
  = safeParse (Tool.schema additionTool) (VObj [("a", VNum 30); ("b", VNum 12)])
  /\ resolved (invoke additionTool (VObj [("b", VNum 12); ("a", VNum 30)]))
     = resolved (invoke additionTool (VObj [("a", VNum 30); ("b", VNum 12)])).
Proof.
  apply (property_order_is_irrelevant additionTool).
  - reflexivity.
  - apply perm_swap.
  - repeat constructor; simpl; intros H; repeat destruct H as [H|H];
      try discriminate H; exact H.
Defined.

(** ** What the two tools answer *)

Lemma calculationSchema_success (props : list (string * value)) (x y : float) :
  own props "a" = Some (VNum x) -> own props "b" = Some (VNum y) ->
  PrimFloat.is_nan x = false -> PrimFloat.is_nan y = false ->
  safeParse calculationSchema (VObj props) = success [("a", x); ("b", y)].
Proof.
  intros Ea Eb Na Nb. apply Get_number in Ea, Eb.
  unfold safeParse, calculationSchema, shape_parse. cbn [key].
  rewrite Ea, Eb. simpl. rewrite Na, Nb. reflexivity.
Qed.

Lemma calculationSchema_success_inv (input : value) (out : Output) :
  safeParse calculationSchema input = success out ->
  exists props x y,
    input = VObj props
    /\ own props "a" = Some (VNum x) /\ own props "b" = Some (VNum y)
    /\ PrimFloat.is_nan x = false /\ PrimFloat.is_nan y = false
    /\ out = [("a", x); ("b", y)].
Proof.
  destruct input as [| | | | | |props]; try discriminate.
  unfold safeParse, calculationSchema, shape_parse. cbn [key].
  destruct (number_parse ["a"] (Get props "a")) as [x|i] eqn:Ea;
    destruct (number_parse ["b"] (Get props "b")) as [y|j] eqn:Eb;
    try discriminate.
  intros H. injection H as <-.
  apply number_parse_success in Ea, Eb.
  destruct Ea as [Ea Na], Eb as [Eb Nb]. apply Get_number in Ea, Eb.
  exists props, x, y. repeat split; assumption.
Qed.

(** X6: an argument object whose [a] and [b] hold numbers, and that is
    not itself shaped like a tool call, is answered with their binary64 sum
    by [addition] and with their binary64 product by [multiplication],
    whatever other properties the object carries and wherever [a] and [b]
    stand in it; the loop prints the two results and ends normally. *)
Theorem shipped_tools_compute :
  forall (props : list (string * value)) (x y : float),
    own props "a" = Some (VNum x) ->
    own props "b" = Some (VNum y) ->
    PrimFloat.is_nan x = false ->
    PrimFloat.is_nan y = false ->
    _isToolCall (VObj props) = false ->
    invoke_tools toolMapping
      [ request "addition" (VObj props); request "multiplication" (VObj props) ]
    = {| console :=
           [ ResultFor "addition" (VObj props)
               (Content (VNum (PrimFloat.add x y)));
             ResultFor "multiplication" (VObj props)
               (Content (VNum (PrimFloat.mul x y))) ];
         uncaught := None |}.
Proof.
  intros props x y Ea Eb Na Nb Htc.
  assert (Hadd : attempt toolMapping (request "addition" (VObj props))
                 = Resolved (Content (VNum (PrimFloat.add x y)))).
  { rewrite attempt_shipped. simpl. rewrite (invoke_plain _ _ Htc).
    change (Tool.schema additionTool) with calculationSchema.
    rewrite (calculationSchema_success props x y Ea Eb Na Nb). reflexivity. }
  assert (Hmul : attempt toolMapping (request "multiplication" (VObj props))
                 = Resolved (Content (VNum (PrimFloat.mul x y)))).
  { rewrite attempt_shipped. simpl. rewrite (invoke_plain _ _ Htc).
    change (Tool.schema multiplicationTool) with calculationSchema.
    rewrite (calculationSchema_success props x y Ea Eb Na Nb). reflexivity. }
  cbn [invoke_tools]. rewrite Hadd, Hmul. reflexivity.
Qed.

Lemma shipped_tools_compute_witness :
  invoke_tools toolMapping
    [ request "addition"
        (VObj [("note", VStr "extra"); ("b", VNum 0.5); ("a", VNum 4)]);
      request "multiplication"
        (VObj [("note", VStr "extra"); ("b", VNum 0.5); ("a", VNum 4)]) ]
  = {| console :=
         [ ResultFor "addition"
             (VObj [("note", VStr "extra"); ("b", VNum 0.5); ("a", VNum 4)])
             (Content (VNum (PrimFloat.add 4 0.5)));
           ResultFor "multiplication"
             (VObj [("note", VStr "extra"); ("b", VNum 0.5); ("a", VNum 4)])
             (Content (VNum (PrimFloat.mul 4 0.5))) ];
       uncaught := None |}.
Proof.
  apply (shipped_tools_compute
           [("note", VStr "extra"); ("b", VNum 0.5); ("a", VNum 4)] 4%float 0.5%float);
    reflexivity.
Defined.

Lemma invoke_tools_result (mapping : ToolObject) (calls : list ToolCall.t)
  (name : string) (args : value) (result : ToolOutput) :
  In (ResultFor name args result) (console (invoke_tools mapping calls)) ->
  In (request name args) calls
  /\ attempt mapping (request name args) = Resolved result.
Proof.
  induction calls as [|c calls IH]; simpl; [contradiction|].
  destruct (attempt mapping c) as [r|e] eqn:Hc; simpl; [|contradiction].
  intros [H|H].
  - injection H as <- <- <-. destruct c as [n a]. simpl in *.
    split; [left; reflexivity|exact Hc].
  - destruct (IH H) as [Hin Ha]. split; [right; exact Hin|exact Ha].
Qed.

Lemma number_is_carried (n : float) (toolCallId : value) (name : string) :
  carries name (_formatToolOutput (VNum n) toolCallId name) n.
Proof.
  unfold carries, _formatToolOutput. simpl.
  destruct (truthy toolCallId); simpl; [right; eexists|left]; reflexivity.
Qed.

Lemma addition_resolved (input : value) (result : ToolOutput) :
  invoke additionTool input = Resolved result ->
  exists props x y,
    inputForValidation (toolInput input) = VObj props
    /\ own props "a" = Some (VNum x) /\ own props "b" = Some (VNum y)
    /\ carries "addition" result (PrimFloat.add x y).
Proof.
  unfold invoke, call. change (Tool.schema additionTool) with calculationSchema.
  destruct (safeParse calculationSchema (inputForValidation (toolInput input)))
    as [out|issues] eqn:E; [|discriminate].
  apply calculationSchema_success_inv in E.
  destruct E as (props & x & y & Hin & Ea & Eb & _ & _ & ->).
  simpl. intros H. injection H as <-.
  exists props, x, y. repeat split; try assumption. apply number_is_carried.
Qed.

Lemma multiplication_resolved (input : value) (result : ToolOutput) :
  invoke multiplicationTool input = Resolved result ->
  exists props x y,
    inputForValidation (toolInput input) = VObj props
    /\ own props "a" = Some (VNum x) /\ own props "b" = Some (VNum y)
    /\ carries "multiplication" result (PrimFloat.mul x y).
Proof.
  unfold invoke, call. change (Tool.schema multiplicationTool) with calculationSchema.
  destruct (safeParse calculationSchema (inputForValidation (toolInput input)))
    as [out|issues] eqn:E; [|discriminate].
  apply calculationSchema_success_inv in E.
  destruct E as (props & x & y & Hin & Ea & Eb & _ & _ & ->).
  simpl. intros H. injection H as <-.
  exists props, x, y. repeat split; try assumption. apply number_is_carried.
Qed.

(** X7: every result line the script prints answers one of the tool calls
    it was given and names [addition] or [multiplication].  The object that
    was validated for it (the call's arguments, unwrapped up to twice when
    they are shaped like a tool call) holds numbers under [a] and [b], and
    the result carries their sum, respectively their product: bare, or as
    its JSON text inside a message tagged with the tool's name.  No result
    is printed for anything else. *)
Theorem printed_results_are_sound :
  forall (calls : list ToolCall.t) (name : string) (args : value)
         (result : ToolOutput),
    In (ResultFor name args result) (console (main calls)) ->
    In (request name args) calls
    /\ exists props x y,
         inputForValidation (toolInput args) = VObj props
         /\ own props "a" = Some (VNum x) /\ own props "b" = Some (VNum y)
         /\ ((name = "addition" /\ carries name result (PrimFloat.add x y))
             \/ (name = "multiplication"
                 /\ carries name result (PrimFloat.mul x y))).
Proof.
  intros calls name args result H. unfold main in H. cbn [console] in H.
  apply in_app_or in H. destruct H as [H|H].
  { unfold detected_tools in H. apply in_map_iff in H.
    destruct H as (c & Hc & _). discriminate Hc. }
  apply invoke_tools_result in H. destruct H as [Hin Ha].
  split; [exact Hin|].
  rewrite attempt_shipped in Ha. unfold request in Ha.
  cbn [ToolCall.name ToolCall.args] in Ha.
  destruct (String.eqb_spec "addition" name) as [<-|_].
  - destruct (addition_resolved _ _ Ha) as (props & x & y & Hp & Ea & Eb & Hv).
    exists props, x, y. repeat split; try assumption. left. split; [reflexivity|exact Hv].
  - destruct (String.eqb_spec "multiplication" name) as [<-|_].
    + destruct (multiplication_resolved _ _ Ha) as (props & x & y & Hp & Ea & Eb & Hv).
      exists props, x, y. repeat split; try assumption.
      right. split; [reflexivity|exact Hv].
    + destruct (mem name Object_prototype); simpl in Ha; discriminate Ha.
Qed.

Lemma printed_results_are_sound_witness :
  In (request "multiplication" (ab (VNum 21) (VNum 2)))
     [ request "addition" (ab (VNum 30) (VNum 12));
       request "multiplication" (ab (VNum 21) (VNum 2)) ]
  /\ exists props x y,
       inputForValidation (toolInput (ab (VNum 21) (VNum 2))) = VObj props
       /\ own props "a" = Some (VNum x) /\ own props "b" = Some (VNum y)
       /\ (("multiplication" = "addition"
            /\ carries "multiplication" (Content (VNum 42)) (PrimFloat.add x y))
           \/ ("multiplication" = "multiplication"
               /\ carries "multiplication" (Content (VNum 42)) (PrimFloat.mul x y))).
Proof.
  apply (printed_results_are_sound
           [ request "addition" (ab (VNum 30) (VNum 12));
             request "multiplication" (ab (VNum 21) (VNum 2)) ]).
  simpl. right. right. right. left. reflexivity.
Defined.

(** ** Arguments that are not what the schema wants *)

(** X8: a call to [addition] or [multiplication] whose arguments are not
    an object at all (null, an array, a string, a number), or are an object
    that is not shaped like a tool call and lacks [a] or [b] (the empty
    object among them), ends the loop with the tool's input-parsing error:
    the results of the calls before it have been printed, and no later call
    is processed. *)
Theorem malformed_arguments_end_the_loop :
  forall (pre post : list ToolCall.t) (name : string) (args : value),
    forallb (succeeds toolMapping) pre = true ->
    name = "addition" \/ name = "multiplication" ->
    (forall props, args <> VObj props)
    \/ (exists props k,
           args = VObj props /\ (k = "a" \/ k = "b")
           /\ own props k = None /\ _isToolCall args = false) ->
    invoke_tools toolMapping (pre ++ request name args :: post)
    = {| console := console (invoke_tools toolMapping pre);
         uncaught := Some ToolInputParsingException |}.
Proof.
  intros pre post name args Hpre Hname Hargs.
  apply invoke_tools_first_failure; [exact Hpre|].
  assert (Hparse : _isToolCall args = false
                   /\ exists issues, safeParse calculationSchema args = error issues).
  { destruct Hargs as [Hno | (props & k & -> & Hk & Hown & Htc)].
    - split; [destruct args; try reflexivity; exfalso; eapply Hno; reflexivity|].
      eexists. apply (safeParse_root calculationSchema args Hno).
    - split; [exact Htc|].
      destruct (shape_parse_missing calculationSchema props k) as (issues & E & _);
        [destruct Hk as [-> | ->]; simpl; auto|exact Hown|].
      exists issues. exact E. }
  destruct Hparse as [Htc (issues & E)].
  rewrite attempt_shipped. simpl.
  destruct Hname as [-> | ->]; simpl; rewrite (invoke_plain _ _ Htc);
    [change (Tool.schema additionTool) with calculationSchema
    |change (Tool.schema multiplicationTool) with calculationSchema];
    rewrite E; reflexivity.
Qed.

Lemma malformed_arguments_end_the_loop_witness :
  invoke_tools toolMapping
    ([ request "addition" (ab (VNum 30) (VNum 12)) ]
     ++ request "multiplication" (VObj [])
     :: [ request "addition" (ab (VNum 1) (VNum 1)) ])
  = {| console :=
         console (invoke_tools toolMapping
                    [ request "addition" (ab (VNum 30) (VNum 12)) ]);
       uncaught := Some ToolInputParsingException |}.
Proof.
  apply (malformed_arguments_end_the_loop
           [ request "addition" (ab (VNum 30) (VNum 12)) ]
           [ request "addition" (ab (VNum 1) (VNum 1)) ]
           "multiplication" (VObj [])).
  - reflexivity.
  - right. reflexivity.
  - right. exists [], "b". repeat split. right. reflexivity.
Defined.

(** ** The catalog and the mapping *)


(** ** Validating what was validated *)

Lemma shape_parse_ext_in (shape : ZodObject) (data data' : list (string * value)) :
  (forall k, In k (map key shape) -> Get data k = Get data' k) ->
  shape_parse shape data = shape_parse shape data'.
Proof.
  induction shape as [|f shape IH]; intros Hget; simpl; [reflexivity|].
  rewrite IH, (Hget (key f)); [reflexivity|left; reflexivity|].
  intros k Hk. apply Hget. right. exact Hk.
Qed.

Lemma shape_parse_reads (shape : ZodObject) (data : list (string * value)) :
  forall out : Output,
    shape_parse shape data = success out ->
    forall k, In k (map key shape) ->
      Get (map (fun kn => (fst kn, VNum (snd kn))) out) k = Get data k.
Proof.
  induction shape as [|f shape IH]; intros out; simpl; [contradiction|].
  destruct (number_parse [key f] (Get data (key f))) as [n|i] eqn:E;
    destruct (shape_parse shape data) as [o|j]; try discriminate.
  intros H. injection H as <-. apply number_parse_success in E.
  destruct E as [E _]. intros k Hk. unfold Get. simpl.
  destruct (String.eqb_spec (key f) k) as [<-|Hne]; [symmetry; exact E|].
  destruct Hk as [Hk|Hk]; [contradiction|].
  apply (IH o eq_refl k Hk).
Qed.

(** X11: validation is idempotent.  When a schema of number parameters,
    none of them named like an inherited member, accepts an input, the
    validated arguments, read as an object again, are accepted by the same
    schema and validate to themselves. *)
Theorem validation_is_idempotent :
  forall (schema : ZodObject) (input : value) (out : Output),
    plain_keys schema = true ->
    safeParse schema input = success out ->
    safeParse schema (output_object out) = success out.
Proof.
  intros schema input out _ H.
  destruct input as [| | | | | |data]; try discriminate.
  simpl in H.
  unfold output_object. simpl. rewrite <- H.
  apply shape_parse_ext_in. apply (shape_parse_reads schema data out H).
Qed.

Lemma validation_is_idempotent_witness :
  safeParse calculationSchema
    (output_object [("a", 30%float); ("b", 12%float)])
  = success [("a", 30%float); ("b", 12%float)].
Proof.
  apply (validation_is_idempotent calculationSchema
           (VObj [("b", VNum 12); ("unit", VStr "cm"); ("a", VNum 30)]));
    reflexivity.
Defined.
